(** * GridZero adaptive-difficulty model: a shallow embedding of [ezkl/model.py]

    The script generates a synthetic data set with NumPy, fits a small
    5-16-8-1 network with PyTorch, and exports the network and a sample input.

    Numbers.  The Python code computes in IEEE binary64 (NumPy) and casts to
    binary32.  All definitions below are written once, over a [Scalar]
    interface, and are run at three instances:
    - [binary64]: Rocq's primitive floats, bit-exact for [+ - * /] and the
      comparisons, with the binary32 cast done by [SpecFloat];
    - [exactQ]: exact rationals, executable, rounding idealised away;
    - [realR]: the real numbers, which also carry [exp] for the sigmoid.
    Structural facts (shapes, determinism, the order of the label
    adjustments) are proved for every instance or for [binary64]; range
    bounds are proved in exact arithmetic.

    Library code (NumPy's generator, autograd, Adam, the ONNX tracer) is not
    part of the repository: it is taken as a parameter or modelled by the
    few lines of its documented behaviour that the script relies on. *)

From Stdlib Require Import ZArith QArith Qreals Reals Psatz Lia List String Ascii Bool.
From Stdlib Require Import Floats.
From stdpp Require Import base option list vector gmap strings.

Set Default Proof Using "Type".
Set Warnings "-register-all,-abstract-large-number,-inexact-float".

(* ===================================================================== *)
(** * Scalars *)
(* ===================================================================== *)

Declare Scope scalar_scope.
Delimit Scope scalar_scope with S.

(** What the script needs from its floating-point numbers. *)
Class Scalar (T : Type) := {
  of_Z : Z -> T;                (* conversion of a Python int *)
  fadd : T -> T -> T;
  fsub : T -> T -> T;
  fmul : T -> T -> T;
  fdiv : T -> T -> T;
  flt : T -> T -> bool;         (* [x < y]; false when either is NaN *)
  is_nan : T -> bool;
  to_float32 : T -> T;          (* [astype(np.float32)] on one element *)
}.

Notation "x + y" := (fadd x y) : scalar_scope.
Notation "x - y" := (fsub x y) : scalar_scope.
Notation "x * y" := (fmul x y) : scalar_scope.
Notation "x / y" := (fdiv x y) : scalar_scope.
Notation "x <? y" := (flt x y) : scalar_scope.
Notation "x >? y" := (flt y x) : scalar_scope.

(** A decimal literal [p/q] of the source ([0.6] is [lit 6 10]): the
    correctly rounded quotient of two small integers is the nearest double. *)
Definition lit `{Scalar T} (p : Z) (q : Z) : T := (of_Z p / of_Z q)%S.

(** ** binary64 *)

Definition Z2float (z : Z) : float :=
  SF2Prim (SpecFloat.binary_normalize prec emax z 0%Z false).

(** Rounding of a double to the nearest binary32 value (ties to even),
    overflowing to infinity: precision 24, [emax] 128. *)
Definition round_float32 (x : float) : float :=
  match Prim2SF x with
  | S754_finite s m e => SF2Prim (SpecFloat.binary_round 24 128 s m e)
  | _ => x
  end.

#[export] Instance binary64 : Scalar float := {
  of_Z := Z2float;
  fadd := PrimFloat.add;
  fsub := PrimFloat.sub;
  fmul := PrimFloat.mul;
  fdiv := PrimFloat.div;
  flt := PrimFloat.ltb;
  is_nan := PrimFloat.is_nan;
  to_float32 := round_float32;
}.

(** ** Exact rationals *)

Definition Qltb (x y : Q) : bool := negb (Qle_bool y x).

#[export] Instance exactQ : Scalar Q := {
  of_Z := inject_Z;
  fadd := Qplus;
  fsub := Qminus;
  fmul := Qmult;
  fdiv := Qdiv;
  flt := Qltb;
  is_nan := fun _ => false;
  to_float32 := fun x => x;
}.

(** A closed interval of rationals. *)
Definition in_range (lo hi : Q) (x : Q) : Prop := (lo <= x <= hi)%Q.

(** ** Real numbers *)

Definition Rltb (x y : R) : bool := if Rlt_dec x y then true else false.

#[export] Instance realR : Scalar R := {
  of_Z := IZR;
  fadd := Rplus;
  fsub := Rminus;
  fmul := Rmult;
  fdiv := Rdiv;
  flt := Rltb;
  is_nan := fun _ => false;
  to_float32 := fun x => x;
}.

(** The exponential, for the sigmoid. *)
Class Exponential (T : Type) := fexp : T -> T.
#[export] Instance realR_exp : Exponential R := exp.

(* ===================================================================== *)
(** * NumPy *)
(* ===================================================================== *)

Module np.

Inductive dtype := float64 | float32.

(** An array: element type, shape, and the elements in row-major order. *)
Record ndarray (T : Type) := mk_ndarray {
  arr_dtype : dtype;
  arr_shape : list nat;
  arr_data : list T;
}.
Arguments mk_ndarray {T}.
Arguments arr_dtype {T}.
Arguments arr_shape {T}.
Arguments arr_data {T}.

(** ** The global generator [np.random]

    [seed] replaces the global state; [uniform low high] and
    [normal loc scale] each consume the state and return one double. *)
Class RandomState (T : Type) := {
  rng_state : Type;
  rng_seed : Z -> rng_state;
  rng_uniform : T -> T -> rng_state -> T * rng_state;
  rng_normal : T -> T -> rng_state -> T * rng_state;
}.

(** ** Computations over the global generator that may raise

    [None] is an uncaught Python exception ([IndexError], [ValueError]). *)
Definition M `{RandomState T} (A : Type) : Type :=
  rng_state -> option (A * rng_state).

Definition ret `{RandomState T} {A} (a : A) : M A := fun s => Some (a, s).
Definition bind `{RandomState T} {A B} (m : M A) (k : A -> M B) : M B :=
  fun s => match m s with
           | Some (a, s') => k a s'
           | None => None
           end.
Definition raise `{RandomState T} {A} : M A := fun _ => None.
Definition lift `{RandomState T} {A} (o : option A) : M A :=
  match o with Some a => ret a | None => raise end.

Declare Scope np_scope.
Delimit Scope np_scope with np.
Notation "'do' x <- m ; k" := (bind m (fun x => k))
  (at level 10, x name, m at level 100, k at level 200,
   format "'[v' 'do'  x  <-  m ; '/' k ']'") : np_scope.
Open Scope np_scope.

Section Library.
Context {T : Type} `{Scalar T} `{RandomState T}.

Definition random_seed (seed : Z) : M unit := fun _ => Some (tt, rng_seed seed).

Definition random_uniform1 (low high : T) : M T :=
  fun s => Some (rng_uniform low high s).

Definition random_normal (loc scale : T) : M T :=
  fun s => Some (rng_normal loc scale s).

(** [n] successive draws. *)
Fixpoint draws {A} (draw : M A) (n : nat) : M (list A) :=
  match n with
  | O => ret []
  | S n' => do x <- draw; do xs <- draws draw n'; ret (x :: xs)
  end.

Definition array1 (l : list T) : ndarray T :=
  mk_ndarray float64 [length l] l.

(** [np.random.uniform(low, high, size)]: a 1-D float64 array. *)
Definition random_uniform (low high : T) (size : nat) : M (ndarray T) :=
  do l <- draws (random_uniform1 low high) size; ret (array1 l).

(** [np.zeros(n)] *)
Definition zeros (n : nat) : ndarray T := array1 (replicate n (of_Z 0)).

(** [a[i]] on a 1-D array; [IndexError] out of range. *)
Definition getitem (a : ndarray T) (i : nat) : M T := lift (arr_data a !! i).

(** [a[i] = v] on a 1-D array; [IndexError] out of range. *)
Definition setitem (a : ndarray T) (i : nat) (v : T) : M (ndarray T) :=
  if decide (i < length (arr_data a))
  then ret (mk_ndarray (arr_dtype a) (arr_shape a) (<[i := v]> (arr_data a)))
  else raise.

(** [a / c], elementwise. *)
Definition divide (a : ndarray T) (c : T) : ndarray T :=
  mk_ndarray (arr_dtype a) (arr_shape a) (map (fun x => (x / c)%S) (arr_data a)).

(** [np.clip] on a scalar is [minimum(maximum(x, lo), hi)], where a NaN [x]
    is returned as it is. *)
Definition maximum (a b : T) : T :=
  if is_nan a then a else if (a >? b)%S then a else b.
Definition minimum (a b : T) : T :=
  if is_nan a then a else if (a <? b)%S then a else b.
Definition clip (x lo hi : T) : T := minimum (maximum x lo) hi.

(** [np.column_stack] of 1-D arrays: column [j] of the result is the
    [j]-th array; the arrays must have one length. *)
Definition column_stack (cols : list (ndarray T)) : M (ndarray T) :=
  match cols with
  | [] => raise
  | c :: _ =>
      let n := length (arr_data c) in
      if forallb (fun c' => Nat.eqb (length (arr_data c')) n) cols
      then do rows <- lift (mapM (fun i => mapM (fun c' => arr_data c' !! i) cols) (seq 0 n));
           ret (mk_ndarray (arr_dtype c) [n; length cols] (concat rows))
      else raise
  end.

(** [a.astype(np.float32)] *)
Definition astype_float32 (a : ndarray T) : ndarray T :=
  mk_ndarray float32 (arr_shape a) (map to_float32 (arr_data a)).

(** [a.reshape(-1, k)]: the first dimension is inferred from the size. *)
Definition reshape_rows (a : ndarray T) (k : nat) : M (ndarray T) :=
  let size := length (arr_data a) in
  if decide (k ≠ 0 ∧ Nat.modulo size k = 0)
  then ret (mk_ndarray (arr_dtype a) [Nat.div size k; k] (arr_data a))
  else raise.

(** [for i in range(n): acc = body(i, acc)] *)
Fixpoint for_range {A} (body : nat -> A -> M A) (start n : nat) (acc : A) : M A :=
  match n with
  | O => ret acc
  | S n' => do acc' <- body start acc; for_range body (S start) n' acc'
  end.

(** Element [(i, j)] of a 2-D array. *)
Definition get2 (a : ndarray T) (i j : nat) : option T :=
  match arr_shape a with
  | [_; k] => if decide (j < k) then arr_data a !! (i * k + j) else None
  | _ => None
  end.

End Library.
End np.

Import np.

(* ===================================================================== *)
(** * [generate_training_data] *)
(* ===================================================================== *)

Section Generator.
Context {T : Type} `{Scalar T} `{RandomState T}.

(** The loop body up to the noise, lines 75-95: the integer [base] and its
    three bracketed adjustments, then the time decay, which makes it a
    double. *)
Definition adjusted_base (total_players rare_rate total_mined time_factor : T) : T :=
  let base : Z := 128%Z in
  let base : Z :=
    if (total_players <? of_Z 50)%S then (base + 40)%Z
    else if (total_players >? of_Z 500)%S then (base - 20)%Z
    else base in
  let base : Z :=
    if (rare_rate >? lit 6 10)%S then (base - 50)%Z
    else if (rare_rate <? lit 2 10)%S then (base + 50)%Z
    else base in
  let saturation := (total_mined / of_Z 1024)%S in
  let base : Z :=
    if (saturation >? lit 7 10)%S then (base + 30)%Z else base in
  (of_Z base - time_factor * of_Z 20)%S.

(** Lines 97-100 on a given noise value. *)
Definition noisy_target (base noise : T) : T :=
  let base := (base + noise)%S in
  (clip base (of_Z 1) (of_Z 255) / of_Z 255)%S.

(** The body of the loop, lines 75-100, on the [i]-th raw features. *)
Definition target_sample (total_players rare_rate total_mined time_factor : T) : M T :=
  let base := adjusted_base total_players rare_rate total_mined time_factor in
  do noise <- random_normal (of_Z 0) (of_Z 10);
  ret (noisy_target base noise).

Definition generate_training_data (n_samples : nat)
  : M (ndarray T * ndarray T) :=
  do _ <- random_seed 42;
  do total_players <- random_uniform (of_Z 1) (of_Z 1000) n_samples;
  do avg_score <- random_uniform (of_Z 0) (of_Z 10000) n_samples;
  do rare_rate <- random_uniform (of_Z 0) (of_Z 1) n_samples;
  do total_mined <- random_uniform (of_Z 0) (of_Z (32 * 32)) n_samples;
  do time_factor <- random_uniform (of_Z 0) (of_Z 1) n_samples;
  do target <- for_range (fun i target =>
      do tp <- getitem total_players i;
      do rr <- getitem rare_rate i;
      do tm <- getitem total_mined i;
      do tf <- getitem time_factor i;
      do v <- target_sample tp rr tm tf;
      setitem target i v) 0 n_samples (zeros n_samples);
  do X0 <- column_stack [ divide total_players (of_Z 1000);
                       divide avg_score (of_Z 10000);
                       rare_rate;
                       divide total_mined (of_Z 1024);
                       time_factor ];
  let X := astype_float32 X0 in
  do y <- reshape_rows (astype_float32 target) 1;
  ret (X, y).

(** ** The raw draws of one call

    What the generator hands out after [seed(42)], in the order the call
    consumes it: five arrays of [n] uniform draws, then [n] normal draws,
    one per pass of the loop. *)
Fixpoint draw_list (draw : rng_state -> T * rng_state) (n : nat) (s : rng_state)
  : list T * rng_state :=
  match n with
  | O => ([], s)
  | S n' =>
      let '(x, s) := draw s in
      let '(xs, s) := draw_list draw n' s in
      (x :: xs, s)
  end.

Record raw_draws := mk_raw_draws {
  raw_total_players : list T;
  raw_avg_score : list T;
  raw_rare_rate : list T;
  raw_total_mined : list T;
  raw_time_factor : list T;
  raw_noise : list T;
  final_state : rng_state;
}.

Definition draw_all (n : nat) : raw_draws :=
  let s := rng_seed 42 in
  let '(tp, s) := draw_list (rng_uniform (of_Z 1) (of_Z 1000)) n s in
  let '(sc, s) := draw_list (rng_uniform (of_Z 0) (of_Z 10000)) n s in
  let '(rr, s) := draw_list (rng_uniform (of_Z 0) (of_Z 1)) n s in
  let '(tm, s) := draw_list (rng_uniform (of_Z 0) (of_Z 1024)) n s in
  let '(tf, s) := draw_list (rng_uniform (of_Z 0) (of_Z 1)) n s in
  let '(zs, s) := draw_list (rng_normal (of_Z 0) (of_Z 10)) n s in
  mk_raw_draws tp sc rr tm tf zs s.

(** The [i]-th raw sample of a call: the five features and the noise. *)
Definition raw_sample (d : raw_draws) (i : nat) : option (T * T * T * T * T * T) :=
  tp ← raw_total_players d !! i;
  sc ← raw_avg_score d !! i;
  rr ← raw_rare_rate d !! i;
  tm ← raw_total_mined d !! i;
  tf ← raw_time_factor d !! i;
  z ← raw_noise d !! i;
  Some (tp, sc, rr, tm, tf, z).

(** ** The label, in the words of the specification

    Start from 128 and apply, in this order: the player-count bracket, the
    rare-rate bracket, the saturation bonus, the time decay, the noise;
    clip to [[1, 255]]; divide by 255.  Every step is in the scalar type. *)
Definition spec_adjustments (tp rr tm tf noise : T) : list (T -> T) :=
  [ fun b => if (tp <? of_Z 50)%S then (b + of_Z 40)%S
             else if (tp >? of_Z 500)%S then (b - of_Z 20)%S else b;
    fun b => if (rr >? lit 6 10)%S then (b - of_Z 50)%S
             else if (rr <? lit 2 10)%S then (b + of_Z 50)%S else b;
    fun b => if ((tm / of_Z 1024) >? lit 7 10)%S then (b + of_Z 30)%S else b;
    fun b => (b - tf * of_Z 20)%S;
    fun b => (b + noise)%S ].

Definition spec_label (tp rr tm tf noise : T) : T :=
  let raw := fold_left (fun b adj => adj b) (spec_adjustments tp rr tm tf noise) (of_Z 128) in
  (clip raw (of_Z 1) (of_Z 255) / of_Z 255)%S.

(** The feature row of the specification: each raw feature over its
    domain maximum. *)
Definition spec_features (tp sc rr tm tf : T) : list T :=
  [ (tp / of_Z 1000)%S; (sc / of_Z 10000)%S; rr; (tm / of_Z 1024)%S; tf ].

(** ** Closed forms of the two arrays, for the proofs below *)

(** The targets written by passes [k .. k+m-1] of the loop started in
    state [s]: pass [i] writes [f i z] with [z] the next normal draw. *)
Definition labels_from (f : nat -> T -> T) (k m : nat) (s : rng_state) : list T :=
  zip_with f (seq k m) (draw_list (rng_normal (of_Z 0) (of_Z 10)) m s).1.

(** Row [i] of [X] before the cast, and the target of sample [i]. *)
Definition row_of (d : raw_draws) (i : nat) : list T :=
  let z := of_Z 0 in
  spec_features (nth i (raw_total_players d) z) (nth i (raw_avg_score d) z)
    (nth i (raw_rare_rate d) z) (nth i (raw_total_mined d) z)
    (nth i (raw_time_factor d) z).

Definition target_of (d : raw_draws) (i : nat) (noise : T) : T :=
  let z := of_Z 0 in
  noisy_target
    (adjusted_base (nth i (raw_total_players d) z) (nth i (raw_rare_rate d) z)
       (nth i (raw_total_mined d) z) (nth i (raw_time_factor d) z)) noise.

End Generator.

(* ===================================================================== *)
(** * PyTorch: the model *)
(* ===================================================================== *)

Module nn.
Section Layers.
Context {T : Type} `{Scalar T} `{Exponential T}.

(** A batch of [k]-dimensional rows: a tensor of shape [(N, k)]. *)
Definition tensor (k : nat) : Type := list (vec T k).

Definition sum (l : list T) : T := fold_left fadd l (of_Z 0).

(** [nn.Linear(i, o)]: [weight] has shape [(o, i)], [bias] shape [(o)]. *)
Record Linear (i o : nat) := mk_Linear {
  weight : vec (vec T i) o;
  bias : vec T o;
}.
Arguments weight {i o}.
Arguments bias {i o}.

Definition dot {i} (w x : vec T i) : T :=
  sum (vec_to_list (vzip_with fmul x w)).

(** [y = x W^T + b] on one row. *)
Definition linear {i o} (l : Linear i o) (x : vec T i) : vec T o :=
  vzip_with fadd (vmap (fun w => dot w x) (weight l)) (bias l).

Definition relu (x : T) : T := if (x <? of_Z 0)%S then of_Z 0 else x.

Definition sigmoid (x : T) : T :=
  (of_Z 1 / (of_Z 1 + fexp (of_Z 0 - x)))%S.

(** [nn.MSELoss()]: the mean of the squared differences. *)
Definition MSELoss {k} (input target : tensor k) : T :=
  let sq := flat_map (fun '(a, b) =>
              vec_to_list (vzip_with (fun u v => ((u - v) * (u - v))%S) a b))
              (zip input target) in
  (sum sq / of_Z (Z.of_nat (length sq)))%S.

End Layers.
End nn.

Section DifficultyModel.
Context {T : Type} `{Scalar T} `{Exponential T}.

(** The parameters held by [self.network]: three linear layers. *)
Record DifficultyModel := mk_DifficultyModel {
  fc1 : nn.Linear (T:=T) 5 16;
  fc2 : nn.Linear (T:=T) 16 8;
  fc3 : nn.Linear (T:=T) 8 1;
}.

(** [self.network] on one row: the raw sigmoid output. *)
Definition network1 (m : DifficultyModel) (x : vec T 5) : vec T 1 :=
  vmap nn.sigmoid
    (nn.linear (fc3 m)
       (vmap nn.relu
          (nn.linear (fc2 m)
             (vmap nn.relu (nn.linear (fc1 m) x))))).

(** [self.network(x)] on a batch. *)
Definition network (m : DifficultyModel) (x : nn.tensor 5) : nn.tensor 1 :=
  map (network1 m) x.

(** [DifficultyModel.forward], lines 46-50: [raw * 254 + 1]. *)
Definition forward (m : DifficultyModel) (x : nn.tensor 5) : nn.tensor 1 :=
  let raw := network m x in
  map (vmap (fun r => (r * of_Z 254 + of_Z 1)%S)) raw.

End DifficultyModel.
Arguments DifficultyModel T : clear implicits.

(* ===================================================================== *)
(** * [train_model] *)
(* ===================================================================== *)

(** What the script prints: fixed text, or the progress line
    [Epoch e/total, Loss: l] of line 141. *)
Inductive line (T : Type) :=
  | Text (s : string)
  | EpochLoss (epoch total : nat) (loss : T).
Arguments Text {T}.
Arguments EpochLoss {T}.

(** [torch.optim.Adam] and autograd, as the training loop uses them: the
    optimizer is built from the parameters and a learning rate, and one
    [step] maps the gradients and the parameters to the new parameters. *)
Class Torch (T : Type) := {
  opt_state : Type;
  Adam : DifficultyModel T -> T -> opt_state;
  step : opt_state -> DifficultyModel T -> DifficultyModel T
         -> DifficultyModel T * opt_state;
  (** [backward loss m]: the gradient at [m] of a scalar function of the
      parameters. *)
  backward : (DifficultyModel T -> T) -> DifficultyModel T -> DifficultyModel T;
}.

Section Training.
Context {T : Type} `{Scalar T} `{Exponential T} `{RandomState T} `{Torch T}.

Fixpoint vec_of_list (k : nat) (l : list T) : option (vec T k) :=
  match k, l with
  | O, [] => Some [#]
  | S k', x :: l' => v ← vec_of_list k' l'; Some (x ::: v)
  | _, _ => None
  end.

(** [torch.FloatTensor(a)] for a 2-D array with [k] columns. *)
Definition FloatTensor (k : nat) (a : ndarray T) : option (nn.tensor k) :=
  match arr_shape a with
  | [n; k'] =>
      if decide (k' = k)
      then mapM (fun i => vec_of_list k (take k (drop (i * k) (arr_data a)))) (seq 0 n)
      else None
  | _ => None
  end.

(** One pass of the loop body, lines 131-141. *)
Definition train_epoch (X_tensor : nn.tensor 5) (y_tensor : nn.tensor 1)
    (st : DifficultyModel T * opt_state * list (line T)) (epoch : nat)
  : DifficultyModel T * opt_state * list (line T) :=
  let '(model, optimizer, out) := st in
  (* optimizer.zero_grad(): the gradients below are those of this pass only *)
  let raw_output := network model X_tensor in
  let loss := nn.MSELoss raw_output y_tensor in
  let grads := backward (fun m => nn.MSELoss (network m X_tensor) y_tensor) model in
  let '(model, optimizer) := step optimizer grads model in
  let out :=
    if decide ((epoch + 1) `mod` 100 = 0)%nat
    then out ++ [EpochLoss (epoch + 1) 500 loss]
    else out in
  (model, optimizer, out).

(** [train_model()], with the freshly initialised [DifficultyModel()] as
    argument; returns the trained model and the lines printed. *)
Definition train_model (init : DifficultyModel T)
  : M (DifficultyModel T * list (line T)) :=
  let out := [Text "🧠 Training GridZero Difficulty Model..."] in
  do Xy <- generate_training_data 10000;
  do X_tensor <- lift (FloatTensor 5 Xy.1);
  do y_tensor <- lift (FloatTensor 1 Xy.2);
  let model := init in
  let optimizer := Adam model (lit 1 1000) in
  let '(model, _, out) :=
    fold_left (train_epoch X_tensor y_tensor) (seq 0 500) (model, optimizer, out) in
  ret (model, out ++ [Text "✅ Training complete"]).

(** ** The training run, in the words of the specification

    One full-batch update: the gradient of the mean-squared error between
    the raw network output on all of [X] and the labels [y], then one
    optimizer step. *)
Definition update (X : nn.tensor 5) (y : nn.tensor 1)
    (st : DifficultyModel T * opt_state) : DifficultyModel T * opt_state :=
  step st.2 (backward (fun m => nn.MSELoss (network m X) y) st.1) st.1.

(** The parameters and the optimizer state after [k] updates. *)
Fixpoint after_epochs (X : nn.tensor 5) (y : nn.tensor 1) (k : nat)
    (st : DifficultyModel T * opt_state) : DifficultyModel T * opt_state :=
  match k with
  | O => st
  | S k' => update X y (after_epochs X y k' st)
  end.

(** The loss of epoch [e], counted from 1: computed before its update. *)
Definition epoch_loss (X : nn.tensor 5) (y : nn.tensor 1)
    (st : DifficultyModel T * opt_state) (e : nat) : T :=
  nn.MSELoss (network (after_epochs X y (e - 1) st).1 X) y.

(** The progress line of epoch [e], if one is printed. *)
Definition progress_line (X : nn.tensor 5) (y : nn.tensor 1)
    (st : DifficultyModel T * opt_state) (e : nat) : list (line T) :=
  if decide (e `mod` 100 = 0)%nat then [EpochLoss e 500 (epoch_loss X y st e)] else [].

End Training.

(* ===================================================================== *)
(** * Export *)
(* ===================================================================== *)

Inductive dim := DimFixed (n : nat) | DimSymbolic (name : string).

(** An exported graph: opset, named inputs and outputs with their shapes,
    and the function it computes on a batch. *)
Record onnx_model (T : Type) := mk_onnx_model {
  onnx_opset : nat;
  onnx_inputs : list (string * list dim);
  onnx_outputs : list (string * list dim);
  onnx_run : list (vec T 5) -> list (vec T 1);
}.
Arguments mk_onnx_model {T}.
Arguments onnx_opset {T}.
Arguments onnx_inputs {T}.
Arguments onnx_outputs {T}.
Arguments onnx_run {T}.

(** JSON documents, as [json.dump] receives them. *)
Inductive json (T : Type) :=
  | JNumber (x : T)
  | JString (s : string)
  | JArray (l : list (json T))
  | JObject (l : list (string * json T)).
Arguments JNumber {T}.
Arguments JString {T}.
Arguments JArray {T}.
Arguments JObject {T}.

Inductive file (T : Type) :=
  | OnnxFile (g : onnx_model T)
  | JsonFile (indent : nat) (doc : json T)
  | StateDictFile (m : DifficultyModel T).
Arguments OnnxFile {T}.
Arguments JsonFile {T}.
Arguments StateDictFile {T}.

Record filesystem (T : Type) := mk_filesystem {
  dirs : gset string;
  files : gmap string (file T);
}.
Arguments mk_filesystem {T}.
Arguments dirs {T}.
Arguments files {T}.

Module os.

Definition slash : ascii := "/"%char.

Fixpoint ends_with_slash (s : string) : bool :=
  match s with
  | EmptyString => false
  | String c EmptyString => Ascii.eqb c slash
  | String _ s' => ends_with_slash s'
  end.

(** [os.path.join(a, b)] on POSIX paths. *)
Definition path_join (a b : string) : string :=
  match b with
  | String c _ =>
      if Ascii.eqb c slash then b
      else if ends_with_slash a || String.eqb a "" then a +:+ b
      else a +:+ "/" +:+ b
  | EmptyString =>
      if ends_with_slash a || String.eqb a "" then a else a +:+ "/"
  end.

(** [os.makedirs(d, exist_ok=True)] *)
Definition makedirs {T} (d : string) (fs : filesystem T) : filesystem T :=
  mk_filesystem ({[ d ]} ∪ dirs fs) (files fs).

(** Opening [p] for writing and writing [f]: creates or overwrites. *)
Definition write_file {T} (p : string) (f : file T) (fs : filesystem T) : filesystem T :=
  mk_filesystem (dirs fs) (<[ p := f ]> (files fs)).

End os.

Section Exporter.
Context {T : Type} `{Scalar T} `{Exponential T}.

(** The shape [(N, k)] of a batch, with the axes listed for [name] in
    [dynamic_axes] replaced by their symbolic names. *)
Definition declared_shape (name : string) (shape : list nat)
    (dynamic_axes : gmap string (gmap nat string)) : list dim :=
  imap (fun axis n =>
          match dynamic_axes !! name ≫= (.!! axis) with
          | Some s => DimSymbolic s
          | None => DimFixed n
          end) shape.

(** [torch.onnx.export(model, dummy_input, path, ...)]: tracing runs
    [model(dummy_input)], i.e. [forward]; the graph records the operations of
    that run, and the declared shapes are those of the dummy input and of
    the traced output.  [forward] has no data-dependent control flow, so the
    graph computes [forward] on every batch. *)
Definition torch_onnx_export (model : DifficultyModel T) (dummy_input : nn.tensor 5)
    (input_names output_names : list string)
    (dynamic_axes : gmap string (gmap nat string)) (opset_version : nat)
  : onnx_model T :=
  let traced := forward model dummy_input in
  mk_onnx_model opset_version
    (map (fun nm => (nm, declared_shape nm [length dummy_input; 5] dynamic_axes)) input_names)
    (map (fun nm => (nm, declared_shape nm [length traced; 1] dynamic_axes)) output_names)
    (forward model).

(** The call [torch.onnx.export(...)] of lines 156-167. *)
Definition onnx_export_call (model : DifficultyModel T) (dummy_input : nn.tensor 5)
  : onnx_model T :=
  torch_onnx_export model dummy_input
    ["game_state"] ["difficulty"]
    {[ "game_state" := {[ 0 := "batch_size" ]};
       "difficulty" := {[ 0 := "batch_size" ]} ]}
    11.

(** [export_to_onnx(model, output_dir)]; [dummy_input] is the value of
    [torch.randn(1, 5)], one row. *)
Definition export_to_onnx (model : DifficultyModel T) (dummy_input : vec T 5)
    (output_dir : string) (fs : filesystem T)
  : string * list (line T) * filesystem T :=
  let fs := os.makedirs output_dir fs in
  let dummy_input : nn.tensor 5 := [dummy_input] in
  let onnx_path := os.path_join output_dir "difficulty_model.onnx" in
  let fs := os.write_file onnx_path (OnnxFile (onnx_export_call model dummy_input)) fs in
  (onnx_path, [Text ("✅ ONNX model exported: " +:+ onnx_path)], fs).

(** The dictionary [sample] of lines 178-186. *)
Definition sample_values : list T :=
  [ lit 15 100;   (* 150 players (normalized) *)
    lit 35 100;   (* avg score 3500 *)
    lit 45 100;   (* 45% rare rate *)
    lit 30 100;   (* 30% grid mined *)
    lit 25 100 ]. (* 25% time elapsed *)

Definition sample : json T :=
  JObject [ ("input_data", JArray [ JArray (JNumber <$> sample_values) ]) ].

(** [generate_sample_input(output_dir)] *)
Definition generate_sample_input (output_dir : string) (fs : filesystem T)
  : string * list (line T) * filesystem T :=
  let fs := os.makedirs output_dir fs in
  let input_path := os.path_join output_dir "input.json" in
  let fs := os.write_file input_path (JsonFile 2 sample) fs in
  (input_path, [Text ("✅ Sample input: " +:+ input_path)], fs).

(** ** The scaled output, in the words of the specification

    On one input row the scaled mode returns [raw * 254 + 1], where [raw] is
    the sigmoid output of the network. *)
Definition scaled_output (m : DifficultyModel T) (x : vec T 5) (raw out : T) : Prop :=
  network m [x] = [ [# raw] ] /\
  forward m [x] = [ [# out] ] /\
  out = (raw * of_Z 254 + of_Z 1)%S.

End Exporter.

(* ===================================================================== *)
(** * A small generator to run the definitions *)
(* ===================================================================== *)

(** A linear congruential generator standing in for NumPy's Mersenne
    Twister: [uniform] returns [low + (high - low) * u] with [u] in
    [[0, 1)], [normal] returns [loc + scale * z] with [z] in [[-4, 4]]. *)
Module lcg.

Definition modulus : Z := 2147483648.
Definition next (s : Z) : Z := ((1103515245 * s + 12345) `mod` modulus)%Z.

Section Draws.
Context {T : Type} `{Scalar T}.

Definition unit_draw (s : Z) : T := (of_Z (s `mod` 1000) / of_Z 1000)%S.
Definition gauss_draw (s : Z) : T := (of_Z (s `mod` 2001 - 1000) / of_Z 250)%S.

Definition uniform (low high : T) (s : Z) : T * Z :=
  ((low + (high - low) * unit_draw s)%S, next s).
Definition normal (loc scale : T) (s : Z) : T * Z :=
  ((loc + scale * gauss_draw s)%S, next s).

Definition random_state : RandomState T := {|
  rng_state := Z;
  rng_seed := fun z => next (z `mod` modulus)%Z;
  rng_uniform := uniform;
  rng_normal := normal;
|}.

End Draws.
End lcg.

(* ===================================================================== *)
(** * The parameters of the model *)
(* ===================================================================== *)

Section Parameters.
Context {T : Type}.

(** The tensors of one [nn.Linear], flattened: [weight], then [bias]. *)
Definition linear_parameters {i o} (l : nn.Linear (T:=T) i o) : list (list T) :=
  [ concat (vec_to_list <$> vec_to_list (nn.weight i o l)); vec_to_list (nn.bias i o l) ].

(** [model.parameters()], as line 126 hands it to the optimizer: the
    tensors of the three linear layers of [__init__], lines 37-44, in order. *)
Definition parameters (m : DifficultyModel T) : list (list T) :=
  linear_parameters (fc1 m) ++ linear_parameters (fc2 m) ++ linear_parameters (fc3 m).

(** The number of trainable scalars. *)
Definition numel (m : DifficultyModel T) : nat :=
  sum_list (length <$> parameters m).

End Parameters.

(* ===================================================================== *)
(** * [main] *)
(* ===================================================================== *)

Module posixpath.

Definition is_slash (c : ascii) : bool := Ascii.eqb c "/"%char.

Fixpoint drop_while (f : ascii -> bool) (l : list ascii) : list ascii :=
  match l with
  | [] => []
  | c :: l' => if f c then drop_while f l' else l
  end.

(** [os.path.dirname(p)]: what precedes the last slash, without its
    trailing slashes unless it consists of slashes only. *)
Definition dirname (p : string) : string :=
  let head_rev := drop_while (fun c => negb (is_slash c)) (rev (list_ascii_of_string p)) in
  if forallb is_slash head_rev
  then string_of_list_ascii (rev head_rev)
  else string_of_list_ascii (rev (drop_while is_slash head_rev)).

End posixpath.

(** What [main] prints: the lines of the functions it calls, and the test
    prediction of line 207. *)
Inductive console (T : Type) :=
  | Printed (l : line T)
  | TestPrediction (difficulty : T).
Arguments Printed {T}.
Arguments TestPrediction {T}.

(** [s * n] on Python strings. *)
Fixpoint string_mul (s : string) (n : nat) : string :=
  match n with
  | O => ""
  | S n' => s +:+ string_mul s n'
  end.

Definition newline : string := String (ascii_of_nat 10) EmptyString.

Section Main.
Context {T : Type} `{Scalar T} `{Exponential T} `{RandomState T} `{Torch T}.

(** [torch.save(obj, path)] opens [path] for writing: the directory must
    exist ([FileNotFoundError] otherwise); the file is created or
    overwritten. *)
Definition torch_save (p : string) (f : file T) (fs : filesystem T)
  : option (filesystem T) :=
  if decide (posixpath.dirname p ∈ dirs fs) then Some (os.write_file p f fs) else None.

(** The row of line 204. *)
Definition test_input : vec T 5 :=
  [# lit 15 100; lit 35 100; lit 45 100; lit 30 100; lit 25 100 ].

(** [t.item()]: the tensor must hold exactly one element. *)
Definition item (t : nn.tensor 1) : option T :=
  match t with
  | [ v ] => Some (v !!! 0%fin)
  | _ => None
  end.

(** [main()], lines 196-225.  [init] is the freshly initialised
    [DifficultyModel()], [dummy_input] the value of [torch.randn(1, 5)] in
    [export_to_onnx]; both come from PyTorch's own generator. *)
Definition main (init : DifficultyModel T) (dummy_input : vec T 5)
    (fs : filesystem T) : M (list (console T) * filesystem T) :=
  let out := [ Printed (Text "🎮 GridZero EZKL Difficulty Model");
               Printed (Text (string_mul "=" 40)) ] in
  do trained <- train_model init;
  let model := trained.1 in
  let out := out ++ (Printed <$> trained.2) in
  do difficulty <- lift (item (forward model [test_input]));
  let out := out ++ [ TestPrediction difficulty ] in
  let out := out ++ [ Printed (Text "") ] in
  let '(_, printed, fs) := export_to_onnx model dummy_input "./build" fs in
  let out := out ++ (Printed <$> printed) in
  let '(_, printed, fs) := generate_sample_input "./build" fs in
  let out := out ++ (Printed <$> printed) in
  do fs <- lift (torch_save "./build/difficulty_model.pt" (StateDictFile model) fs);
  let out := out ++
    [ Printed (Text "✅ Model weights saved: ./build/difficulty_model.pt");
      Printed (Text (newline +:+ string_mul "=" 40));
      Printed (Text "Next steps:");
      Printed (Text "  1. Run: ezkl gen-settings -M build/difficulty_model.onnx");
      Printed (Text "  2. Run: ezkl calibrate-settings ...");
      Printed (Text "  3. Run: ezkl compile-circuit ...");
      Printed (Text "  4. Run: ezkl setup ...");
      Printed (Text "  5. Run: ezkl prove ...");
      Printed (Text "  6. Submit proof to zkVerify") ] in
  ret (out, fs).

End Main.

(* ===================================================================== *)
(** * Facts about the generator *)
(* ===================================================================== *)

Section GeneratorFacts.
Context {T : Type} `{Scalar T} `{RandomState T}.

Lemma bind_Some {A B} (m : M A) (k : A -> M B) s r :
  m s = Some r -> bind m k s = k r.1 r.2.
Proof. intros E. unfold bind. rewrite E. by destruct r. Qed.

Lemma draws_draw_list (draw : rng_state -> T * rng_state) n s :
  draws (fun s => Some (draw s)) n s = Some (draw_list draw n s).
Proof.
  revert s. induction n as [|n IH]; intros s; simpl; [done|].
  unfold bind at 1. destruct (draw s) as [x s1].
  unfold bind at 1. rewrite IH. by destruct (draw_list draw n s1).
Qed.

Lemma draw_list_length draw n s : length (draw_list draw n s).1 = n.
Proof.
  revert s. induction n as [|n IH]; intros s; simpl; [done|].
  destruct (draw s) as [x s1]. specialize (IH s1).
  destruct (draw_list draw n s1); simpl in *. by rewrite IH.
Qed.

Lemma random_uniform_eq low high n s :
  random_uniform low high n s =
    Some (array1 (draw_list (rng_uniform low high) n s).1,
          (draw_list (rng_uniform low high) n s).2).
Proof.
  unfold random_uniform, random_uniform1.
  by erewrite bind_Some by apply draws_draw_list.
Qed.

Lemma for_range_fill (f : nat -> T -> T) (body : nat -> ndarray T -> M (ndarray T)) n :
  (forall i a s, (i < n)%nat -> length (arr_data a) = n ->
     body i a s =
       Some (mk_ndarray (arr_dtype a) (arr_shape a)
               (<[i := f i (rng_normal (of_Z 0) (of_Z 10) s).1]> (arr_data a)),
             (rng_normal (of_Z 0) (of_Z 10) s).2)) ->
  forall m k a s, (k + m = n)%nat -> length (arr_data a) = n ->
    for_range body k m a s =
      Some (mk_ndarray (arr_dtype a) (arr_shape a)
              (take k (arr_data a) ++ labels_from f k m s),
            (draw_list (rng_normal (of_Z 0) (of_Z 10)) m s).2).
Proof.
  intros Hbody. induction m as [|m IH]; intros k a s Hk Hlen.
  - simpl. unfold ret, labels_from. simpl. rewrite app_nil_r.
    rewrite take_ge by lia. by destruct a.
  - simpl. erewrite bind_Some by (apply Hbody; [lia|done]).
    rewrite IH; simpl; [|lia|by rewrite length_insert].
    unfold labels_from. simpl.
    destruct (rng_normal (of_Z 0) (of_Z 10) s) as [z s1]; simpl.
    destruct (draw_list _ m s1) as [zs s2]; simpl.
    f_equal. f_equal. f_equal.
    rewrite (take_S_r _ _ (f k z)).
    + rewrite take_insert_ge by lia. by rewrite <- app_assoc.
    + apply list_lookup_insert_eq. lia.
Qed.

Lemma target_sample_eq tp rr tm tf s :
  target_sample tp rr tm tf s =
    Some (noisy_target (adjusted_base tp rr tm tf) (rng_normal (of_Z 0) (of_Z 10) s).1,
          (rng_normal (of_Z 0) (of_Z 10) s).2).
Proof.
  unfold target_sample, random_normal, bind, ret.
  by destruct (rng_normal (of_Z 0) (of_Z 10) s).
Qed.

Lemma getitem_array1 (l : list T) i s :
  (i < length l)%nat -> getitem (array1 l) i s = Some (nth i l (of_Z 0), s).
Proof.
  intros Hi. unfold getitem. simpl.
  destruct (lookup_lt_is_Some_2 l i Hi) as [x Hx]. rewrite Hx. simpl.
  by rewrite (nth_lookup_Some _ _ _ _ Hx).
Qed.

Lemma mapM_lookup_cols (cols : list (ndarray T)) n :
  Forall (fun c => length (arr_data c) = n) cols ->
  mapM (fun i => mapM (fun c => arr_data c !! i) cols) (seq 0 n) =
    Some (map (fun i => map (fun c => nth i (arr_data c) (of_Z 0)) cols) (seq 0 n)).
Proof.
  intros Hall. apply mapM_Some. apply Forall2_fmap_r.
  apply Forall_Forall2_diag. apply Forall_forall. intros i Hi.
  apply elem_of_seq in Hi. apply mapM_Some. apply Forall2_fmap_r.
  apply Forall_Forall2_diag. eapply Forall_impl; [exact Hall|].
  intros c Hc; simpl in *.
  destruct (lookup_lt_is_Some_2 (arr_data c) i ltac:(lia)) as [x Hx].
  rewrite Hx. by rewrite (nth_lookup_Some _ _ _ _ Hx).
Qed.

Lemma column_stack_eq c (cols : list (ndarray T)) s :
  Forall (fun c' => length (arr_data c') = length (arr_data c)) (c :: cols) ->
  column_stack (c :: cols) s =
    Some (mk_ndarray (arr_dtype c) [length (arr_data c); S (length cols)]
            (concat (map (fun i => map (fun c' => nth i (arr_data c') (of_Z 0)) (c :: cols))
                       (seq 0 (length (arr_data c))))), s).
Proof.
  intros Hall. unfold column_stack.
  assert (forallb (fun c' => Nat.eqb (length (arr_data c')) (length (arr_data c))) (c :: cols) = true) as ->.
  { apply forallb_forall. intros c' Hc'. apply Nat.eqb_eq.
    rewrite Forall_forall in Hall. apply Hall. by apply list_elem_of_In. }
  rewrite (mapM_lookup_cols _ _ Hall). done.
Qed.

Lemma generate_training_data_eq n s0 :
  let d := draw_all n in
  generate_training_data n s0 =
    Some (mk_ndarray float32 [n; 5]
            (map to_float32 (concat (map (row_of d) (seq 0 n)))),
          mk_ndarray float32 [n; 1]
            (map to_float32 (zip_with (target_of d) (seq 0 n) (raw_noise d))),
          final_state d).
Proof.
  unfold generate_training_data, draw_all, random_seed.
  unfold bind at 1.
  generalize (rng_seed 42). intros s.
  change (32 * 32)%Z with 1024%Z.
  do 5 (match goal with |- bind (random_uniform ?lo ?hi ?n) _ ?s = _ =>
    rewrite (bind_Some _ _ s _ (random_uniform_eq lo hi n s));
    pose proof (draw_list_length (rng_uniform lo hi) n s);
    destruct (draw_list (rng_uniform lo hi) n s) as [? ?]; cbn [fst snd] in * end).
  set (f := fun i z => noisy_target
              (adjusted_base (nth i l (of_Z 0)) (nth i l1 (of_Z 0))
                 (nth i l2 (of_Z 0)) (nth i l3 (of_Z 0))) z).
  erewrite bind_Some; cycle 1.
  { apply (for_range_fill f _ n); [|lia|by simpl; rewrite length_replicate].
    intros i a s' Hi Hlen.
    repeat (erewrite bind_Some by (apply getitem_array1; lia); cbn [fst snd]).
    erewrite bind_Some by apply target_sample_eq. cbn [fst snd].
    unfold setitem. by rewrite decide_True by lia. }
  cbn [fst snd arr_dtype arr_shape arr_data zeros array1]. rewrite take_0, app_nil_l.
  unfold labels_from.
  pose proof (draw_list_length (rng_normal (of_Z 0) (of_Z 10)) n r3) as Hz.
  destruct (draw_list (rng_normal (of_Z 0) (of_Z 10)) n r3) as [zs s6]; cbn [fst snd] in *.
  erewrite bind_Some; cycle 1.
  { apply column_stack_eq. repeat constructor; simpl; rewrite ?length_map; lia. }
  cbn [fst snd].
  unfold reshape_rows, astype_float32; cbn [arr_data arr_dtype arr_shape].
  rewrite decide_True; cycle 1.
  { split; [lia|]. apply Nat.mod_1_r. }
  unfold bind, ret. cbn [divide array1 arr_data arr_dtype arr_shape length].
  rewrite Nat.div_1_r, !length_map, length_zip_with, length_seq, Hz, Nat.min_id, H1.
  do 3 f_equal. f_equal. f_equal. f_equal.
  apply map_ext_in. intros i Hi. apply in_seq in Hi.
  unfold row_of, spec_features; cbn [map raw_total_players raw_avg_score
    raw_rare_rate raw_total_mined raw_time_factor].
  cbn [divide array1 arr_data]. repeat f_equal.
  all: match goal with |- nth ?j (map ?g ?l) ?d = _ =>
         destruct (lookup_lt_is_Some_2 l j ltac:(lia)) as [x Hx];
         rewrite (nth_lookup_Some _ _ _ _ Hx);
         apply nth_lookup_Some; by rewrite list_lookup_fmap, Hx end.
Qed.

Lemma lookup_concat_rows {A} (rows : list (list A)) k i j :
  Forall (fun r => length r = k) rows -> (j < k)%nat ->
  concat rows !! (i * k + j)%nat = rows !! i ≫= (.!! j).
Proof.
  intros Hrows Hj. revert i. induction Hrows as [|r rows Hr _ IH]; intros i.
  - by rewrite !lookup_nil.
  - destruct i as [|i]; simpl.
    + rewrite lookup_app_l by lia. done.
    + rewrite lookup_app_r by lia.
      replace (k + i * k + j - length r)%nat with (i * k + j)%nat by lia.
      apply IH.
Qed.

Lemma length_concat_rows {A} (rows : list (list A)) k :
  Forall (fun r => length r = k) rows ->
  length (concat rows) = (length rows * k)%nat.
Proof.
  induction 1 as [|r rows Hr _ IH]; simpl; [done|].
  rewrite length_app. lia.
Qed.

Lemma draw_all_lengths n :
  let d := draw_all n in
  length (raw_total_players d) = n /\ length (raw_avg_score d) = n /\
  length (raw_rare_rate d) = n /\ length (raw_total_mined d) = n /\
  length (raw_time_factor d) = n /\ length (raw_noise d) = n.
Proof.
  unfold draw_all. generalize (rng_seed 42). intros s.
  repeat match goal with
  | |- context [draw_list ?dr n ?s] =>
      pose proof (draw_list_length dr n s);
      destruct (draw_list dr n s) as [? ?]; cbn [fst snd] in *
  end.
  simpl. tauto.
Qed.

Lemma generated_samples n s0 :
  exists X y,
    generate_training_data n s0 = Some (X, y, final_state (draw_all n)) /\
    (arr_dtype X = float32 /\ arr_shape X = [n; 5] /\ length (arr_data X) = (n * 5)%nat) /\
    (arr_dtype y = float32 /\ arr_shape y = [n; 1] /\ length (arr_data y) = n) /\
    forall i, (i < n)%nat ->
      exists tp sc rr tm tf z,
        raw_sample (draw_all n) i = Some (tp, sc, rr, tm, tf, z) /\
        arr_data y !! i = Some (to_float32 (noisy_target (adjusted_base tp rr tm tf) z)) /\
        forall j, get2 X i j = (to_float32 <$> spec_features tp sc rr tm tf) !! j.
Proof.
  pose proof (generate_training_data_eq n s0) as E. cbv zeta in E.
  destruct (draw_all_lengths n) as (Ltp & Lsc & Lrr & Ltm & Ltf & Lz).
  set (d := draw_all n) in *.
  eexists _, _. split; [exact E|].
  cbn [arr_dtype arr_shape arr_data].
  assert (Forall (fun r => length r = 5%nat) (map (row_of d) (seq 0 n))) as Hrows.
  { apply Forall_fmap, Forall_forall. by intros. }
  split; [|split].
  - repeat split. rewrite length_map, (length_concat_rows _ 5%nat) by done.
    rewrite length_map, length_seq. lia.
  - repeat split. by rewrite length_map, length_zip_with, length_seq, Lz, Nat.min_id.
  - intros i Hi.
    destruct (lookup_lt_is_Some_2 (raw_total_players d) i ltac:(lia)) as [tp Htp].
    destruct (lookup_lt_is_Some_2 (raw_avg_score d) i ltac:(lia)) as [sc Hsc].
    destruct (lookup_lt_is_Some_2 (raw_rare_rate d) i ltac:(lia)) as [rr Hrr].
    destruct (lookup_lt_is_Some_2 (raw_total_mined d) i ltac:(lia)) as [tm Htm].
    destruct (lookup_lt_is_Some_2 (raw_time_factor d) i ltac:(lia)) as [tf Htf].
    destruct (lookup_lt_is_Some_2 (raw_noise d) i ltac:(lia)) as [z Hz].
    exists tp, sc, rr, tm, tf, z. split; [|split].
    + unfold raw_sample. rewrite Htp, Hsc, Hrr, Htm, Htf, Hz. done.
    + rewrite list_lookup_fmap, lookup_zip_with, lookup_seq_lt by done. simpl.
      rewrite Hz. simpl. unfold target_of.
      by rewrite (nth_lookup_Some _ _ _ _ Htp), (nth_lookup_Some _ _ _ _ Hrr),
        (nth_lookup_Some _ _ _ _ Htm), (nth_lookup_Some _ _ _ _ Htf).
    + intros j. unfold get2. cbn [arr_shape arr_data].
      destruct (decide (j < 5)%nat) as [Hj|Hj].
      * rewrite list_lookup_fmap, (lookup_concat_rows _ 5%nat) by done.
        rewrite list_lookup_fmap, lookup_seq_lt by done. simpl.
        rewrite <- list_lookup_fmap. unfold row_of.
        by rewrite (nth_lookup_Some _ _ _ _ Htp), (nth_lookup_Some _ _ _ _ Hrr),
          (nth_lookup_Some _ _ _ _ Htm), (nth_lookup_Some _ _ _ _ Htf),
          (nth_lookup_Some _ _ _ _ Hsc).
      * symmetry. apply lookup_ge_None_2. simpl. lia.
Qed.
End GeneratorFacts.

(* ===================================================================== *)
(** * Facts about the label and the ranges *)
(* ===================================================================== *)

Lemma label_refines_spec_binary64 (tp rr tm tf z : float) :
  noisy_target (adjusted_base tp rr tm tf) z = spec_label tp rr tm tf z.
Proof.
  unfold noisy_target, adjusted_base, spec_label, spec_adjustments.
  cbn [fold_left].
  destruct (tp <? of_Z 50)%S, (tp >? of_Z 500)%S, (rr >? lit 6 10)%S,
    (rr <? lit 2 10)%S, ((tm / of_Z 1024) >? lit 7 10)%S;
    vm_compute; reflexivity.
Qed.


Lemma clip_Q (x : Q) : (1 <= clip x (of_Z 1) (of_Z 255) <= 255)%Q.
Proof.
  unfold clip, minimum, maximum. cbn. unfold Qltb.
  destruct (Qle_bool x (inject_Z 1)) eqn:E1; simpl.
  - vm_compute. split; congruence.
  - destruct (Qle_bool (inject_Z 255) x) eqn:E2; simpl.
    + vm_compute. split; congruence.
    + assert (~ x <= 1)%Q by (rewrite <- Qle_bool_iff; change (inject_Z 1) with 1%Q in E1; congruence).
      assert (~ 255 <= x)%Q by (rewrite <- Qle_bool_iff; change (inject_Z 255) with 255%Q in E2; congruence).
      lra.
Qed.

(* ===================================================================== *)
(** * Facts about the model and the training loop *)
(* ===================================================================== *)

Lemma sigmoid_range (x : R) : (0 < nn.sigmoid x < 1)%R.
Proof.
  unfold nn.sigmoid. cbn. unfold fexp, realR_exp.
  pose proof (exp_pos (0 - x)) as He. set (e := exp (0 - x)) in *. clearbody e.
  split.
  - apply Rdiv_lt_0_compat; lra.
  - apply (Rmult_lt_reg_r (1 + e)); [lra|]. unfold Rdiv. rewrite Rmult_assoc, Rinv_l by lra. lra.
Qed.

Lemma network1_raw (m : DifficultyModel R) (x : vec R 5) :
  exists raw : R, network1 m x = [# raw] /\ (0 < raw < 1)%R.
Proof.
  unfold network1.
  set (z := nn.linear (fc3 m) _). clearbody z.
  inv_vec z. intros z0. simpl. eexists; split; [reflexivity|].
  apply sigmoid_range.
Qed.

Section TrainingFacts.
Context {T : Type} `{Scalar T} `{Exponential T} `{RandomState T} `{Torch T}.

Lemma vec_of_list_Some k (l : list T) :
  length l = k -> exists v, vec_of_list k l = Some v /\ vec_to_list v = l.
Proof.
  revert l. induction k as [|k IH]; intros [|x l] Hl; simpl in *; try discriminate.
  - by exists [#].
  - destruct (IH l) as (v & -> & Hv); [lia|]. simpl. exists (x ::: v). split; [done|]. simpl. by rewrite Hv.
Qed.

Lemma FloatTensor_Some k (a : ndarray T) n :
  arr_shape a = [n; k] -> length (arr_data a) = (n * k)%nat ->
  exists t, FloatTensor k a = Some t /\ length t = n.
Proof.
  intros Hs Hl. unfold FloatTensor. rewrite Hs, decide_True by done.
  destruct (mapM (fun i => vec_of_list k (take k (drop (i * k) (arr_data a)))) (seq 0 n)) as [t|] eqn:E.
  - exists t. split; [done|]. apply length_mapM in E. by rewrite length_seq in E.
  - exfalso. apply mapM_None in E. apply Exists_exists in E as (i & Hi & Hnone).
    apply elem_of_seq in Hi.
    destruct (vec_of_list_Some k (take k (drop (i * k) (arr_data a)))) as (v & Hv & _);
      [|congruence].
    rewrite length_take, length_drop. nia.
Qed.

(** The progress line of epoch [e] (counted from 1), if it is printed. *)
Lemma train_loop_eq X y m0 o0 out N :
  fold_left (train_epoch X y) (seq 0 N) (m0, o0, out) =
    ((after_epochs X y N (m0, o0)).1, (after_epochs X y N (m0, o0)).2,
     out ++ concat (map (progress_line X y (m0, o0)) (seq 1 N))).
Proof.
  induction N as [|N IH].
  - simpl. by rewrite app_nil_r.
  - rewrite !seq_S, fold_left_app, IH. cbn [fold_left].
    rewrite map_app, concat_app. cbn [map concat]. rewrite app_nil_r.
    unfold train_epoch. cbn [after_epochs]. unfold update at 1 2.
    destruct (after_epochs X y N (m0, o0)) as [m o] eqn:E. cbn [fst snd].
    destruct (step o _ m) as [m' o']. cbn [fst snd].
    f_equal. unfold progress_line, epoch_loss.
    replace (0 + N + 1)%nat with (1 + N)%nat by lia. 
    replace (0 + N)%nat with N by lia.
    replace (1 + N - 1)%nat with N by lia. rewrite E. cbn [fst].
    destruct (decide ((1 + N) `mod` 100 = 0)%nat) as [Hd|Hd].
    + by rewrite app_assoc.
    + by rewrite app_nil_r.
Qed.
End TrainingFacts.

(* ===================================================================== *)
(** * The synthetic data generator *)
(* ===================================================================== *)

Lemma noisy_target_range_Q (base z : Q) :
  in_range (1 # 255) 1 (noisy_target base z).
Proof.
  unfold noisy_target, in_range.
  pose proof (clip_Q (base + z)%S) as Hc.
  set (c := clip _ _ _) in *. clearbody c.
  cbn in *. change (inject_Z 255) with 255%Q in *.
  split.
  - apply Qle_shift_div_l; lra.
  - apply Qle_shift_div_r; lra.
Qed.

Lemma spec_features_range_Q (tp sc rr tm tf : Q) :
  in_range 1 1000 tp -> in_range 0 10000 sc -> in_range 0 1 rr ->
  in_range 0 1024 tm -> in_range 0 1 tf ->
  Forall (in_range 0 1) (spec_features tp sc rr tm tf).
Proof.
  unfold in_range, spec_features. cbn.
  change (inject_Z 1000) with 1000%Q. change (inject_Z 10000) with 10000%Q.
  change (inject_Z 1024) with 1024%Q.
  intros. repeat constructor; try lra.
  all: try (apply Qle_shift_div_l; lra); try (apply Qle_shift_div_r; lra).
Qed.

(** C1.  Every label of a generated data set is the specification's
    formula on the raw draws of that sample: start from 128, apply the
    player-count bracket, the rare-rate bracket, the saturation bonus, the
    time decay and the normal(0, 10) noise in this order, clip to [1, 255],
    divide by 255.  Proved in binary64, where the order of the additions
    matters; the array stores the binary32 rounding of that value. *)
Theorem label_follows_policy `{RandomState float} (n : nat) (s0 : rng_state) :
  exists X y s1,
    generate_training_data n s0 = Some (X, y, s1) /\
    length (arr_data y) = n /\
    forall i, (i < n)%nat ->
      exists tp sc rr tm tf z,
        raw_sample (draw_all n) i = Some (tp, sc, rr, tm, tf, z) /\
        arr_data y !! i = Some (round_float32 (spec_label tp rr tm tf z)).
Proof.
  destruct (generated_samples n s0) as (X & y & E & _ & (_ & _ & Hlen) & Hs).
  exists X, y, (final_state (draw_all n)). repeat split; [exact E|exact Hlen|].
  intros i Hi. destruct (Hs i Hi) as (tp & sc & rr & tm & tf & z & Hraw & Hy & _).
  exists tp, sc, rr, tm, tf, z. split; [exact Hraw|].
  rewrite Hy. by rewrite label_refines_spec_binary64.
Qed.



(** C4.  The result of [generate_training_data] depends on the sample
    count only: whatever state the global generator is in when the call
    starts, the call reseeds it with 42, so two calls with the same count
    return equal arrays (and leave the generator in the same state). *)
Theorem generation_is_deterministic {T : Type} `{Scalar T} `{RandomState T}
    (n : nat) (s s' : rng_state) :
  generate_training_data n s = generate_training_data n s' /\
  exists X y s1,
    generate_training_data n s = Some (X, y, s1) /\
    generate_training_data n s1 = Some (X, y, s1).
Proof.
  rewrite !generate_training_data_eq. split; [done|].
  eexists _, _, _. split; [reflexivity|].
  by rewrite generate_training_data_eq.
Qed.

(** C10.  For every sample count [n], zero included, the call returns a
    feature array of shape [(n, 5)] and a label array of shape [(n, 1)],
    both of dtype float32. *)
Theorem generated_shapes {T : Type} `{Scalar T} `{RandomState T}
    (n : nat) (s0 : rng_state) :
  exists X y s1,
    generate_training_data n s0 = Some (X, y, s1) /\
    arr_shape X = [n; 5] /\ arr_dtype X = float32 /\
    length (arr_data X) = (n * 5)%nat /\
    arr_shape y = [n; 1] /\ arr_dtype y = float32 /\
    length (arr_data y) = n.
Proof.
  destruct (generated_samples n s0) as (X & y & E & (? & ? & ?) & (? & ? & ?) & _).
  by exists X, y, (final_state (draw_all n)).
Qed.


(* ===================================================================== *)
(** * The model *)
(* ===================================================================== *)


(* ===================================================================== *)
(** * Training *)
(* ===================================================================== *)

Section TrainingRun.
Context {T : Type} `{Scalar T} `{Exponential T} `{RandomState T} `{Torch T}.

Lemma progress_lines_filter X y st (l : list nat) :
  concat (map (progress_line X y st) l) =
    map (fun e => EpochLoss e 500 (epoch_loss X y st e))
      (filter (fun e => e `mod` 100 = 0)%nat l).
Proof.
  induction l as [|e l IH]; [done|].
  cbn [map concat]. rewrite filter_cons, IH. unfold progress_line.
  by destruct (decide (e `mod` 100 = 0)%nat).
Qed.

Lemma reported_epochs :
  filter (fun e => e `mod` 100 = 0)%nat (seq 1 500) = [100; 200; 300; 400; 500]%nat.
Proof. vm_compute. reflexivity. Qed.

(** What [train_model] returns, for a data set of any size [n]. *)
Lemma train_on_generated (n : nat) (init : DifficultyModel T) (s0 : rng_state) :
  exists X y s1 X_tensor y_tensor,
    generate_training_data n s0 = Some (X, y, s1) /\
    FloatTensor 5 X = Some X_tensor /\ FloatTensor 1 y = Some y_tensor /\
    length X_tensor = n /\ length y_tensor = n /\
    let st0 := (init, Adam init (lit 1 1000)) in
    (do Xy <- generate_training_data n;
     do X_tensor <- lift (FloatTensor 5 Xy.1);
     do y_tensor <- lift (FloatTensor 1 Xy.2);
     let '(model, _, out) :=
       fold_left (train_epoch X_tensor y_tensor) (seq 0 500)
         (init, Adam init (lit 1 1000), [Text "🧠 Training GridZero Difficulty Model..."]) in
     ret (model, out ++ [Text "✅ Training complete"])) s0 =
      Some ((after_epochs X_tensor y_tensor 500 st0).1,
            [Text "🧠 Training GridZero Difficulty Model..."] ++
            map (fun e => EpochLoss e 500 (epoch_loss X_tensor y_tensor st0 e))
              [100; 200; 300; 400; 500]%nat ++
            [Text "✅ Training complete"],
            s1).
Proof.
  destruct (generated_samples n s0)
    as (X & y & E & (_ & HsX & HlX) & (_ & Hsy & Hly) & _).
  destruct (FloatTensor_Some 5 X n HsX HlX) as (Xt & EX & HXt).
  destruct (FloatTensor_Some 1 y n Hsy ltac:(by rewrite Nat.mul_1_r)) as (yt & Ey & Hyt).
  exists X, y, (final_state (draw_all n)), Xt, yt.
  repeat split; try done.
  erewrite bind_Some by exact E. cbn [fst snd].
  rewrite EX, Ey. cbn [lift]. unfold bind at 1, ret at 1. unfold bind at 1, ret at 1.
  rewrite train_loop_eq, progress_lines_filter, reported_epochs.
  unfold ret. by rewrite <- app_assoc.
Qed.

(** C7.  The loop makes exactly 500 updates, whatever the losses are, each
    at learning rate 0.001 and on the whole data set in the order it was
    generated, and prints the loss at epochs 100, 200, 300, 400 and 500 and
    at no other epoch. *)
Theorem training_runs_500_epochs (init : DifficultyModel T) (s0 : rng_state) :
  exists X y s1 X_tensor y_tensor,
    generate_training_data 10000 s0 = Some (X, y, s1) /\
    FloatTensor 5 X = Some X_tensor /\ FloatTensor 1 y = Some y_tensor /\
    length X_tensor = 10000%nat /\ length y_tensor = 10000%nat /\
    let st0 := (init, Adam init (lit 1 1000)) in
    train_model init s0 =
      Some ((after_epochs X_tensor y_tensor 500 st0).1,
            [Text "🧠 Training GridZero Difficulty Model..."] ++
            map (fun e => EpochLoss e 500 (epoch_loss X_tensor y_tensor st0 e))
              [100; 200; 300; 400; 500]%nat ++
            [Text "✅ Training complete"],
            s1).
Proof. apply train_on_generated. Qed.

End TrainingRun.

Lemma network_raw_range (m : DifficultyModel R) (X : nn.tensor 5) :
  Forall (fun r : vec R 1 => 0 < r !!! 0%fin < 1)%R (network m X).
Proof.
  unfold network. apply Forall_fmap, Forall_forall. intros x _. unfold compose.
  destruct (network1_raw m x) as (raw & -> & Hr). exact Hr.
Qed.

Lemma forward_scaled_range (m : DifficultyModel R) (X : nn.tensor 5) :
  Forall (fun r : vec R 1 => 1 < r !!! 0%fin < 255)%R (forward m X).
Proof.
  unfold forward, network. rewrite <- list_fmap_compose.
  apply Forall_fmap, Forall_forall. intros x _. unfold compose.
  destruct (network1_raw m x) as (raw & -> & Hr). cbn. lra.
Qed.


(* ===================================================================== *)
(** * Export *)
(* ===================================================================== *)

Section ExportFacts.
Context {T : Type} `{Scalar T} `{Exponential T}.



End ExportFacts.

(* ===================================================================== *)
(** * Running the definitions *)
(* ===================================================================== *)

(** The decimal literals of the source are the nearest doubles. *)
Example literals_binary64 :
  (lit 6 10, lit 2 10, lit 7 10) = (0.6, 0.2, 0.7)%float /\
  sample_values = [0.15; 0.35; 0.45; 0.30; 0.25]%float.
Proof. split; vm_compute; reflexivity. Qed.

(** In binary64 the label saturates at both ends of the clip: the stored
    binary32 values are [0x1.010102p-8], just above 1/255, and 1. *)
Example label_saturates_binary64 :
  round_float32 (spec_label 10 0.1 900 0 1000)%float = 1%float /\
  round_float32 (spec_label 800 0.9 0 1 (-1000))%float = 0x1.010102p-8%float /\
  round_float32 (spec_label 10 0.1 900 0 nan)%float = nan.
Proof. repeat split; vm_compute; reflexivity. Qed.

(** A sample in the middle: 128 + 40 - 50 + 30 - 0.5 * 20 + 2 = 140. *)
Example label_mid_exact :
  (spec_label 10 (9 # 10) 900 (1 # 2) 2 == 140 # 255)%Q /\
  (noisy_target (adjusted_base 10 (9 # 10) 900 (1 # 2)) 2 == 140 # 255)%Q.
Proof. split; vm_compute; reflexivity. Qed.

(** Four samples in binary64, drawn from the stand-in generator. *)
Example generate_four_binary64 :
  match @generate_training_data float binary64 lcg.random_state 4 7%Z with
  | Some (X, y, _) =>
      arr_shape X = [4; 5]%nat /\ arr_shape y = [4; 1]%nat /\
      arr_data y = [0.84635293483734131; 0.19090196490287781;
                    0.093254901468753815; 0.69945096969604492]%float
  | None => False
  end.
Proof. vm_compute. repeat split. Qed.

(** The default output directory. *)
Example default_paths :
  os.path_join "./build" "difficulty_model.onnx" = "./build/difficulty_model.onnx" /\
  os.path_join "./build" "input.json" = "./build/input.json".
Proof. split; reflexivity. Qed.

(* ===================================================================== *)
(** * More on the generator *)
(* ===================================================================== *)

(** X1.  Row [i] of [X] holds, in this order, the [i]-th player count over
    1000, average score over 10000, rare rate, mined count over 1024 and
    time factor, each cast to float32; outside [n] rows and 5 columns
    there is no entry. *)
Theorem feature_rows_follow_draws {T : Type} `{Scalar T} `{RandomState T}
    (n : nat) (s0 : rng_state) :
  exists X y s1,
    generate_training_data n s0 = Some (X, y, s1) /\
    (forall i, (i < n)%nat ->
       exists tp sc rr tm tf z,
         raw_sample (draw_all n) i = Some (tp, sc, rr, tm, tf, z) /\
         forall j, get2 X i j =
           [ to_float32 (tp / of_Z 1000)%S; to_float32 (sc / of_Z 10000)%S;
             to_float32 rr; to_float32 (tm / of_Z 1024)%S; to_float32 tf ] !! j) /\
    (forall i j, (n <= i)%nat \/ (5 <= j)%nat -> get2 X i j = None).
Proof.
  destruct (generated_samples n s0) as (X & y & E & (_ & Hshape & Hlen) & _ & Hs).
  exists X, y, (final_state (draw_all n)). split; [exact E|]. split.
  - intros i Hi. destruct (Hs i Hi) as (tp & sc & rr & tm & tf & z & Hraw & _ & HX).
    exists tp, sc, rr, tm, tf, z. split; [exact Hraw|]. intros j. by rewrite HX.
  - intros i j Hij. unfold get2. rewrite Hshape.
    destruct (decide (j < 5)%nat) as [Hj|Hj]; [|done].
    apply lookup_ge_None_2. destruct Hij; lia.
Qed.

Lemma Qltb_true (x y : Q) : Qltb x y = true <-> (x < y)%Q.
Proof.
  unfold Qltb. rewrite negb_true_iff, <- not_true_iff_false, Qle_bool_iff.
  split; [apply Qnot_le_lt | apply Qlt_not_le].
Qed.

Lemma Qltb_false (x y : Q) : Qltb x y = false <-> (y <= x)%Q.
Proof. unfold Qltb. by rewrite negb_false_iff, Qle_bool_iff. Qed.

(** Case analysis on every comparison of the goal. *)
Ltac cases_Qltb :=
  repeat match goal with
  | |- context [Qltb ?a ?b] =>
      let E := fresh "E" in
      destruct (Qltb a b) eqn:E;
      [apply Qltb_true in E | apply Qltb_false in E]
  end.

Ltac unfold_Q :=
  repeat match goal with
  | |- context [@lit Q exactQ ?p ?q] =>
      let v := eval vm_compute in (@lit Q exactQ p q) in
      change (@lit Q exactQ p q) with v
  end;
  cbn [of_Z fadd fsub fmul fdiv flt is_nan exactQ];
  unfold inject_Z.

(** Evaluation of the integer sums left in numerators. *)
Ltac norm_Zconst :=
  repeat match goal with
  | |- context [Qmake (?a + ?b)%Z _] =>
      let v := eval vm_compute in (a + b)%Z in change (a + b)%Z with v
  | |- context [Qmake (?a - ?b)%Z _] =>
      let v := eval vm_compute in (a - b)%Z in change (a - b)%Z with v
  end.

Lemma clip_Q_cases (x : Q) :
  let c := clip x (of_Z 1) (of_Z 255) in
  ((x <= 1)%Q /\ c = 1%Q) \/ ((1 < x < 255)%Q /\ c = x) \/ ((255 <= x)%Q /\ c = 255%Q).
Proof.
  unfold clip, minimum, maximum. unfold_Q.
  destruct (Qltb 1 x) eqn:E1;
    [apply Qltb_true in E1 | apply Qltb_false in E1];
    cases_Qltb; cbn zeta;
    first [ left; split; [lra|done]
          | right; left; split; [lra|done]
          | right; right; split; [lra|done] ].
Qed.

Lemma noisy_target_mono_Q (b b' z z' : Q) :
  (b' + z' <= b + z)%Q -> (noisy_target b' z' <= noisy_target b z)%Q.
Proof.
  intros Hle. unfold noisy_target. cbn [fadd exactQ].
  destruct (clip_Q_cases (b + z)%Q) as [[H1 ->]|[[H1 ->]|[H1 ->]]];
  destruct (clip_Q_cases (b' + z')%Q) as [[H2 ->]|[[H2 ->]|[H2 ->]]];
  unfold_Q; unfold Qdiv; (apply Qmult_le_compat_r; [lra | vm_compute; congruence]).
Qed.

(** The integer part of the base: one of finitely many sums between 58
    and 248, which the time factor does not influence. *)
Lemma adjusted_base_Q_form (tp rr tm : Q) :
  exists b : Z, (58 <= b <= 248)%Z /\
    forall tf, adjusted_base tp rr tm tf = (inject_Z b - tf * 20)%Q.
Proof.
  unfold adjusted_base.
  destruct (tp <? of_Z 50)%S, (tp >? of_Z 500)%S, (rr >? lit 6 10)%S,
    (rr <? lit 2 10)%S, ((tm / of_Z 1024) >? lit 7 10)%S;
    eexists; (split; [|intros tf; reflexivity]); lia.
Qed.

Lemma adjusted_base_range_Q (tp rr tm tf : Q) :
  in_range 0 1 tf -> in_range 38 248 (adjusted_base tp rr tm tf).
Proof.
  intros [Hlo Hhi]. destruct (adjusted_base_Q_form tp rr tm) as (b & [Hb1 Hb2] & ->).
  rewrite Zle_Qle in Hb1, Hb2. unfold in_range.
  change (inject_Z 58) with 58%Q in Hb1. change (inject_Z 248) with 248%Q in Hb2. lra.
Qed.







Lemma adjusted_base_players_Q (tp tp' rr tm tf : Q) :
  (tp < 50)%Q -> (500 < tp')%Q ->
  (adjusted_base tp rr tm tf == adjusted_base tp' rr tm tf + 60)%Q.
Proof.
  intros H1 H2. unfold adjusted_base. unfold_Q.
  apply Qltb_true in H1 as E1. rewrite E1.
  assert (Qltb tp' 50 = false) as -> by (apply Qltb_false; lra).
  apply Qltb_true in H2 as ->.
  cases_Qltb; norm_Zconst; lra.
Qed.

Lemma adjusted_base_rares_Q (tp rr rr' tm tf : Q) :
  (rr < 2 # 10)%Q -> (6 # 10 < rr')%Q ->
  (adjusted_base tp rr tm tf == adjusted_base tp rr' tm tf + 100)%Q.
Proof.
  intros H1 H2. unfold adjusted_base. unfold_Q.
  assert (Qltb (6 # 10) rr = false) as -> by (apply Qltb_false; lra).
  assert (Qltb rr (2 # 10) = true) as -> by (apply Qltb_true; lra).
  assert (Qltb (6 # 10) rr' = true) as -> by (apply Qltb_true; lra).
  cases_Qltb; norm_Zconst; lra.
Qed.





Lemma adjusted_base_saturation_Q (tp rr tm tm' tf : Q) :
  (7 # 10 < tm / 1024)%Q -> (tm' / 1024 <= 7 # 10)%Q ->
  (adjusted_base tp rr tm tf == adjusted_base tp rr tm' tf + 30)%Q.
Proof.
  intros H1 H2. unfold adjusted_base. unfold_Q.
  assert (Qltb (7 # 10) (tm / 1024) = true) as -> by (by apply Qltb_true).
  assert (Qltb (7 # 10) (tm' / 1024) = false) as -> by (by apply Qltb_false).
  cases_Qltb; norm_Zconst; lra.
Qed.



(* ===================================================================== *)
(** * More on the model and the training data *)
(* ===================================================================== *)

(** X8.  Whatever its values, the model has six parameter tensors of 80,
    16, 128, 8, 8 and 1 scalars: 241 trainable scalars in all. *)
Theorem parameter_count {T : Type} (m : DifficultyModel T) :
  length <$> parameters m = [80; 16; 128; 8; 8; 1]%nat /\ numel m = 241%nat.
Proof.
  assert (forall i o (l : nn.Linear (T:=T) i o),
    length <$> linear_parameters l = [o * i; o]%nat) as Hl.
  { intros i o l. unfold linear_parameters. cbn [fmap list_fmap]. f_equal.
    - rewrite (length_concat_rows _ i).
      + by rewrite length_fmap, length_vec_to_list.
      + apply Forall_fmap, Forall_forall. intros v _. apply length_vec_to_list.
    - by rewrite length_vec_to_list. }
  assert (length <$> parameters m = [80; 16; 128; 8; 8; 1]%nat) as E.
  { unfold parameters. by rewrite !fmap_app, !Hl. }
  split; [exact E|]. unfold numel. by rewrite E.
Qed.

Section TensorFacts.
Context {T : Type} `{Scalar T} `{Exponential T} `{RandomState T} `{Torch T}.

Lemma vec_of_list_to_list k (l : list T) (v : vec T k) :
  vec_of_list k l = Some v -> vec_to_list v = l.
Proof.
  revert l v. induction k as [|k IH]; intros [|x l] v E; simpl in E; try discriminate.
  - by injection E as <-.
  - destruct (vec_of_list k l) as [w|] eqn:Ew; simpl in E; [|discriminate].
    injection E as <-. simpl. by rewrite (IH l w Ew).
Qed.

(** Row [i] of [torch.FloatTensor(a)] is the [i]-th run of [k] elements. *)
Lemma FloatTensor_rows k (a : ndarray T) t i row :
  FloatTensor k a = Some t -> t !! i = Some row ->
  vec_to_list row = take k (drop (i * k) (arr_data a)).
Proof.
  unfold FloatTensor. intros E Hrow.
  destruct (arr_shape a) as [|n [|k' [|]]]; try discriminate.
  destruct (decide (k' = k)); [|discriminate].
  apply mapM_Some_1 in E.
  destruct (Forall2_lookup_r _ _ _ _ _ E Hrow) as (j & Hj & Hv).
  apply lookup_seq in Hj as [-> _]. by apply vec_of_list_to_list.
Qed.

Lemma take_drop_row (l : list T) k i (r : list T) :
  length r = k ->
  (forall j, (j < k)%nat -> l !! (i * k + j)%nat = r !! j) ->
  take k (drop (i * k) l) = r.
Proof.
  intros Hr Hl. apply list_eq. intros j.
  destruct (decide (j < k)%nat) as [Hj|Hj].
  - rewrite lookup_take_lt, lookup_drop by done. by apply Hl.
  - rewrite lookup_take_ge by lia. symmetry. apply lookup_ge_None_2. lia.
Qed.

(** The tensors that training runs on, for a data set of [n] samples. *)
Lemma tensors_follow_draws (n : nat) (s0 : rng_state) :
  exists X y s1 X_tensor y_tensor,
    generate_training_data n s0 = Some (X, y, s1) /\
    FloatTensor 5 X = Some X_tensor /\ FloatTensor 1 y = Some y_tensor /\
    forall i, (i < n)%nat ->
      exists tp sc rr tm tf z,
        raw_sample (draw_all n) i = Some (tp, sc, rr, tm, tf, z) /\
        vec_to_list <$> X_tensor !! i =
          Some (to_float32 <$> spec_features tp sc rr tm tf) /\
        vec_to_list <$> y_tensor !! i =
          Some [to_float32 (noisy_target (adjusted_base tp rr tm tf) z)].
Proof.
  destruct (generated_samples n s0)
    as (X & y & E & (_ & HsX & HlX) & (_ & Hsy & Hly) & Hs).
  destruct (FloatTensor_Some 5 X n HsX HlX) as (Xt & EX & HXt).
  destruct (FloatTensor_Some 1 y n Hsy ltac:(by rewrite Nat.mul_1_r)) as (yt & Ey & Hyt).
  exists X, y, (final_state (draw_all n)), Xt, yt. repeat split; try done.
  intros i Hi. destruct (Hs i Hi) as (tp & sc & rr & tm & tf & z & Hraw & Hy & HX).
  exists tp, sc, rr, tm, tf, z. split; [exact Hraw|]. split.
  - destruct (lookup_lt_is_Some_2 Xt i ltac:(lia)) as [row Hrow].
    unfold nn.tensor in *. rewrite Hrow. cbn [fmap option_fmap option_map]. f_equal.
    rewrite (FloatTensor_rows _ _ _ _ _ EX Hrow).
    apply take_drop_row; [done|]. intros j Hj.
    specialize (HX j). unfold get2 in HX. rewrite HsX in HX.
    by rewrite decide_True in HX by done.
  - destruct (lookup_lt_is_Some_2 yt i ltac:(lia)) as [row Hrow].
    unfold nn.tensor in *. rewrite Hrow. cbn [fmap option_fmap option_map]. f_equal.
    rewrite (FloatTensor_rows _ _ _ _ _ Ey Hrow).
    apply take_drop_row; [done|]. intros j Hj.
    assert (j = 0)%nat as -> by lia. by rewrite Nat.mul_1_r, Nat.add_0_r.
Qed.

(** X9.  [train_model] trains on the generated samples in the order they
    were generated, features and label of one sample at the same index:
    row [i] of the feature tensor is the cast feature row of the [i]-th
    draws, row [i] of the label tensor is their label. *)
Theorem training_rows_are_generated_samples (init : DifficultyModel T) (s0 : rng_state) :
  exists X_tensor y_tensor out s1,
    train_model init s0 =
      Some ((after_epochs X_tensor y_tensor 500 (init, Adam init (lit 1 1000))).1,
            out, s1) /\
    forall i, (i < 10000)%nat ->
      exists tp sc rr tm tf z,
        raw_sample (draw_all 10000) i = Some (tp, sc, rr, tm, tf, z) /\
        vec_to_list <$> X_tensor !! i =
          Some (to_float32 <$> spec_features tp sc rr tm tf) /\
        vec_to_list <$> y_tensor !! i =
          Some [to_float32 (noisy_target (adjusted_base tp rr tm tf) z)].
Proof.
  destruct (tensors_follow_draws 10000 s0)
    as (X & y & s1 & Xt & yt & E & EX & Ey & Hrows).
  destruct (train_on_generated 10000 init s0)
    as (X' & y' & s1' & Xt' & yt' & E' & EX' & Ey' & _ & _ & Etrain).
  rewrite E in E'. injection E' as <- <- <-.
  rewrite EX in EX'. injection EX' as <-.
  rewrite Ey in Ey'. injection Ey' as <-.
  exists Xt, yt. eexists _, s1. split; [exact Etrain|exact Hrows].
Qed.

End TensorFacts.

Lemma Rltb_true (x y : R) : Rltb x y = true <-> (x < y)%R.
Proof. unfold Rltb. destruct (Rlt_dec x y); split; (done || lra). Qed.

Lemma Rltb_false (x y : R) : Rltb x y = false <-> (y <= x)%R.
Proof. unfold Rltb. destruct (Rlt_dec x y); split; (done || lra). Qed.

Lemma noisy_target_range_R (base z : R) :
  (1 / 255 <= noisy_target base z <= 1)%R.
Proof.
  unfold noisy_target, clip, minimum, maximum.
  cbn [of_Z fadd fdiv flt is_nan realR].
  destruct (Rltb 1 (base + z)) eqn:E1;
    [apply Rltb_true in E1 | apply Rltb_false in E1].
  - destruct (Rltb (base + z) 255) eqn:E2;
      [apply Rltb_true in E2 | apply Rltb_false in E2]; lra.
  - destruct (Rltb 1 255) eqn:E2;
      [apply Rltb_true in E2 | apply Rltb_false in E2]; lra.
Qed.

Lemma vec1_inv {A} (v : vec A 1) : exists u, v = [# u].
Proof. inv_vec v. intros u. by exists u. Qed.

Lemma sum_unit_bounds (l : list R) (a : R) :
  Forall (fun x => 0 <= x < 1)%R l ->
  (a <= fold_left Rplus l a)%R /\
  (l <> [] -> fold_left Rplus l a < a + INR (length l))%R.
Proof.
  intros Hl. revert a. induction Hl as [|x l Hx _ IH]; intros a.
  - simpl. split; [lra|done].
  - cbn [fold_left]. destruct (IH (a + x)%R) as [IH1 IH2]. split; [lra|].
    intros _. rewrite length_cons, S_INR.
    destruct l as [|x' l'].
    + simpl. lra.
    + specialize (IH2 ltac:(done)). lra.
Qed.

(** The mean-squared error between outputs in (0, 1) and labels in
    [1/255, 1], over a non-empty batch, lies in [0, 1). *)
Lemma MSELoss_unit_bounds (out lab : nn.tensor (T:=R) 1) :
  Forall (fun r : vec R 1 => 0 < r !!! 0%fin < 1)%R out ->
  Forall (fun r : vec R 1 => 1 / 255 <= r !!! 0%fin <= 1)%R lab ->
  out <> [] -> lab <> [] ->
  (0 <= nn.MSELoss out lab < 1)%R.
Proof.
  intros Hout Hlab Ho Hl. unfold nn.MSELoss.
  set (sq := flat_map _ _).
  assert (Forall (fun x => 0 <= x < 1)%R sq) as Hsq.
  { apply Forall_forall. intros x Hx. apply list_elem_of_In, in_flat_map in Hx.
    destruct Hx as ([a b] & Hab & Hx).
    apply list_elem_of_In, elem_of_zip_with in Hab as (a' & b' & Heq & Ha & Hb).
    injection Heq as <- <-.
    rewrite Forall_forall in Hout, Hlab.
    specialize (Hout a Ha). specialize (Hlab b Hb).
    destruct (vec1_inv a) as [u ->]. destruct (vec1_inv b) as [v ->].
    cbn in Hx, Hout, Hlab. destruct Hx as [<-|[]].
    clear -Hout Hlab. assert (-1 < u - v < 1)%R as Hd by lra.
    set (d := (u - v)%R) in *. clearbody d. split; nra. }
  assert (sq <> []) as Hne.
  { destruct out as [|a out]; [done|]. destruct lab as [|b lab]; [done|].
    subst sq. destruct (vec1_inv a) as [u ->]. destruct (vec1_inv b) as [v ->]. done. }
  destruct (sum_unit_bounds sq 0%R Hsq) as [H1 H2]. specialize (H2 Hne).
  unfold nn.sum. cbn [of_Z fdiv fadd realR]. change (fold_left fadd sq 0%R) with (fold_left Rplus sq 0%R).
  rewrite <- INR_IZR_INZ.
  assert (0 < INR (length sq))%R as Hpos.
  { apply lt_0_INR. destruct sq; [done|simpl; lia]. }
  rewrite Rplus_0_l in H2. split.
  - apply Rmult_le_pos; [exact H1|]. apply Rlt_le. by apply Rinv_0_lt_compat.
  - apply (Rmult_lt_reg_r (INR (length sq))); [exact Hpos|].
    unfold Rdiv. rewrite Rmult_assoc, Rinv_l by lra. lra.
Qed.


(* ===================================================================== *)
(** * More on the exported files *)
(* ===================================================================== *)

Lemma onnx_path_is_not_input_path (d : string) :
  os.path_join d "difficulty_model.onnx" <> os.path_join d "input.json".
Proof.
  unfold os.path_join. cbn [Ascii.eqb os.slash Bool.eqb].
  destruct (os.ends_with_slash d || String.eqb d ""); intros E.
  - apply (inj (String.app d)) in E. discriminate.
  - apply (inj (String.app d)) in E. discriminate.
Qed.

Section FileFacts.
Context {T : Type} `{Scalar T} `{Exponential T}.





End FileFacts.

(* ===================================================================== *)
(** * [main] *)
(* ===================================================================== *)

Section MainFacts.
Context {T : Type} `{Scalar T} `{Exponential T} `{RandomState T} `{Torch T}.

(** What [main] returns once [train_model] has returned [model]. *)
Lemma main_after_training (init : DifficultyModel T) (dummy_input : vec T 5)
    (fs : filesystem T) (s0 s1 : rng_state) model printed :
  train_model init s0 = Some (model, printed, s1) ->
  exists before after,
    main init dummy_input fs s0 =
      Some ((Printed <$> before) ++ (Printed <$> printed) ++
              [TestPrediction
                 ((vmap (fun r => (r * of_Z 254 + of_Z 1)%S) (network1 model test_input))
                    !!! 0%fin)] ++
              (Printed <$> after),
            mk_filesystem ({[ "./build" ]} ∪ dirs fs)
              (<[ "./build/difficulty_model.pt" := StateDictFile model ]>
                (<[ "./build/input.json" := JsonFile 2 sample ]>
                  (<[ "./build/difficulty_model.onnx" :=
                        OnnxFile (onnx_export_call model [dummy_input]) ]> (files fs)))),
            s1).
Proof.
  intros Etrain. unfold main.
  erewrite bind_Some by exact Etrain. cbn [fst snd].
  assert (item (forward model [test_input])
          = Some ((vmap (fun r => (r * of_Z 254 + of_Z 1)%S) (network1 model test_input))
                    !!! 0%fin)) as -> by reflexivity.
  cbn [lift]. unfold bind at 1, ret at 1.
  unfold export_to_onnx, generate_sample_input, os.makedirs, os.write_file.
  cbn [dirs files].
  change (os.path_join "./build" "difficulty_model.onnx") with "./build/difficulty_model.onnx".
  change (os.path_join "./build" "input.json") with "./build/input.json".
  unfold torch_save. cbn [dirs files].
  change (posixpath.dirname "./build/difficulty_model.pt") with "./build".
  rewrite decide_True by set_solver.
  cbn [lift]. unfold bind at 1, ret at 1. unfold ret, os.write_file. cbn [dirs files].
  rewrite (assoc_L (∪)), (idemp_L (∪)).
  eexists [_; _], [_; _; _; _; _; _; _; _; _; _; _; _].
  do 2 f_equal. rewrite <- !app_assoc. cbn [app fmap list_fmap]. reflexivity.
Qed.


End MainFacts.

